(** * The title-bar web components, embedded in Rocq

    The repository holds two custom elements built on LitElement:
    [TitleBar] (the plain version) and [TitleBarTypes] (the version
    annotated with JSDoc types).  Both are embedded below, method by
    method, over a small model of the JavaScript values they handle. *)

From Stdlib Require Import Ascii.
From stdpp Require Import base strings pretty gmap list.

(** ** JavaScript values *)

Module JS.

(** JavaScript numbers are IEEE doubles.  The components only ever print
    them (inside template literals), so the number type is kept abstract
    and comes with the three runtime operations the code relies on. *)
Class Number (number : Type) := {
  (** [Number::toString], as applied by a template literal *)
  Number_toString : number → string;
  (** [ToBoolean] on a number *)
  Number_toBoolean : number → bool;
  (** the value of an integer literal such as [0] *)
  Number_literal : Z → number;
}.

Section values.
Context {number : Type} `{!Number number}.

(** The primitive values that flow through [format] and the templates. *)
Inductive Value :=
| Undefined
| Null
| Boolean (b : bool)
| Num (n : number)
| Str (s : string).

(** [ToString], the conversion a template literal applies to each
    substitution. *)
Definition ToString (v : Value) : string :=
  match v with
  | Undefined => "undefined"
  | Null => "null"
  | Boolean true => "true"
  | Boolean false => "false"
  | Num n => Number_toString n
  | Str s => s
  end.

(** [ToBoolean], the conversion applied by [if (...)] and [... ? ... : ...]. *)
Definition ToBoolean (v : Value) : bool :=
  match v with
  | Undefined | Null => false
  | Boolean b => b
  | Num n => Number_toBoolean n
  | Str s => negb (String.eqb s "")
  end.

(** An untagged template literal: the literal chunks interleaved with the
    substitutions, each converted with [ToString]. *)
Fixpoint template (chunks : list string) (substitutions : list Value) : string :=
  match chunks with
  | [] => ""
  | c :: chunks' =>
      match substitutions with
      | [] => c +:+ template chunks' []
      | v :: substitutions' => c +:+ ToString v +:+ template chunks' substitutions'
      end
  end.

(** Reading a property of an object literal: a missing key reads as
    [undefined]. *)
Definition get (o : gmap string Value) (key : string) : Value :=
  default Undefined (o !! key).

(** A destructuring default [key = d] applies when the property reads as
    [undefined]. *)
Definition get_or (o : gmap string Value) (key : string) (d : Value) : Value :=
  match get o key with
  | Undefined => d
  | v => v
  end.
End values.

Arguments Value number : clear implicits.

(** Objects and functions are compared by identity ([===]).  A reference
    carries that identity next to the content it points to; no code of the
    components writes into an object after it was created. *)
Record Ref (A : Type) := mkRef { ref_id : nat; deref : A }.
Arguments mkRef {A} _ _.
Arguments ref_id {A} _.
Arguments deref {A} _.

End JS.

Import JS.

(** ** lit-html template results *)

Module Html.

(** The line feed and the double quote of the template sources. *)
Definition LF : string := String "010"%char "".
Definition DQ : string := String "034"%char "".

Section template_result.
Context {number : Type}.

(** What the [html] tag returns: the static strings of the template and
    the values of its expressions, in order. *)
Record TemplateResult := html {
  strings : list string;
  values : list (Value number);
}.

(** [ends_with suffix s]: lit-html recognises an attribute binding by the
    static string before the expression ending in [name=]. *)
Definition ends_with (suffix s : string) : bool :=
  String.prefix (String.rev suffix) (String.rev s).

(** The value bound to attribute [name]: the expression that follows a
    static string ending in [name=]. *)
Definition attribute_binding (name : string) (t : TemplateResult) : option (Value number) :=
  snd <$> List.find (λ sv, ends_with (name +:+ "=") (fst sv))
                    (zip (strings t) (values t)).

(** The value rendered as the child of element [tag]: the expression that
    follows a static string ending in the opening tag. *)
Definition child_binding (tag : string) (t : TemplateResult) : option (Value number) :=
  snd <$> List.find (λ sv, ends_with ("<" +:+ tag +:+ ">") (fst sv))
                    (zip (strings t) (values t)).
End template_result.

Arguments TemplateResult number : clear implicits.

End Html.

Import Html.

(** ** What the two classes share: the element's fields *)

Module Bar.
Section bar.
Context {number : Type}.

(** The [Bar] typedef: [x] and [y] are numbers, [title] is optional. *)
Record t := mk { x : number; y : number; title : option string }.

(** Reading [bar.title]: [undefined] when the key is absent. *)
Definition get_title (b : t) : Value number :=
  match title b with
  | Some s => Str s
  | None => Undefined
  end.
End bar.
Arguments t number : clear implicits.
End Bar.

Module Component.
Section component.
Context {number : Type}.

(** A formatter that only computes: a unary function on values
    ([@type {Function}]).  Formatters that also write to the element or
    keep variables of their own are the subject of [Stateful] below. *)
Definition Formatter : Type := Value number → Value number.

(** The four instance fields, typed as the constructor and its JSDoc
    declare them.  [formatter] is [null] or a function. *)
Record Element := mkElement {
  title : string;
  darkMode : bool;
  bar : Ref (Bar.t number);
  formatter : option (Ref Formatter);
}.

(** A method body runs against [this] and may write to it: it returns
    its result together with the element it leaves behind. *)
Definition Method (A : Type) : Type := Element → A * Element.

#[export] Instance Method_ret : MRet Method := λ A a this, (a, this).
#[export] Instance Method_bind : MBind Method :=
  λ A B k m this, let (a, this') := m this in k a this'.

(** Reading [this]. *)
Definition this : Method Element := λ this, (this, this).

(** A property assignment [this.p = v] (or [el.p = v] from outside). *)
Inductive Assignment :=
| AssignTitle (s : string)
| AssignDarkMode (b : bool)
| AssignBar (r : Ref (Bar.t number))
| AssignFormatter (f : option (Ref Formatter)).

Definition property_name (a : Assignment) : string :=
  match a with
  | AssignTitle _ => "title"
  | AssignDarkMode _ => "darkMode"
  | AssignBar _ => "bar"
  | AssignFormatter _ => "formatter"
  end.

(** The field write itself. *)
Definition store (a : Assignment) (e : Element) : Element :=
  match a with
  | AssignTitle s => mkElement s (darkMode e) (bar e) (formatter e)
  | AssignDarkMode b => mkElement (title e) b (bar e) (formatter e)
  | AssignBar r => mkElement (title e) (darkMode e) r (formatter e)
  | AssignFormatter f => mkElement (title e) (darkMode e) (bar e) f
  end.

Definition assign (a : Assignment) : Method () := λ this, ((), store a this).

(** [old !== new] for the value being assigned: strings and booleans by
    value, objects and functions by identity. *)
Definition notEqual (a : Assignment) (e : Element) : bool :=
  match a with
  | AssignTitle s => negb (String.eqb s (title e))
  | AssignDarkMode b => negb (Bool.eqb b (darkMode e))
  | AssignBar r => negb (Nat.eqb (ref_id r) (ref_id (bar e)))
  | AssignFormatter f =>
      match f, formatter e with
      | None, None => false
      | Some g, Some h => negb (Nat.eqb (ref_id g) (ref_id h))
      | _, _ => true
      end
  end.

(** The [type] of a LitElement property declaration. *)
Inductive PropertyType := String_ | Boolean_ | Object_.

(** One entry of [static get properties()]: [reflect] is [false] and
    [attribute] is absent unless the entry says otherwise. *)
Record PropertyDeclaration := mkDeclaration {
  type : PropertyType;
  reflect : bool;
  attribute : option string;
}.

(** [Object.keys] of a declaration object, in insertion order. *)
Definition Object_keys (o : list (string * PropertyDeclaration)) : list string :=
  o.*1.

(** The static strings of the render template, which both classes share
    character for character: the markup between the expressions. *)
Definition render_strings : list string :=
  [ LF +:+ "      <h1>";
    "</h1>" +:+ LF +:+
    "      <div" +:+ LF +:+
    "        class=" +:+ DQ +:+ "dot" +:+ DQ +:+ LF +:+
    "        style=";
    LF +:+ "        title=";
    LF +:+ "      ></div>" +:+ LF +:+ "    " ].
End component.
Arguments Element number : clear implicits.
Arguments Method number A : clear implicits.
Arguments Assignment number : clear implicits.
Arguments Formatter number : clear implicits.
End Component.

Import Component.

(** ** [TitleBar], the plain class *)

Module TitleBar.
Section title_bar.
Context {number : Type} `{!Number number}.

Definition properties : list (string * PropertyDeclaration) :=
  [ ("title", mkDeclaration String_ false None);
    ("darkMode", mkDeclaration Boolean_ true (Some "dark-mode"));
    ("bar", mkDeclaration Object_ false None) ].

(** The constructor, after [super()]: four field writes. *)
Definition constructor : Method number () :=
  assign (AssignTitle "You are awesome");;
  assign (AssignDarkMode false);;
  assign (AssignBar (mkRef 0 (Bar.mk (Number_literal 0) (Number_literal 0) (Some "I am dot"))));;
  assign (AssignFormatter None).

Definition format (value : Value number) : Method number (Value number) :=
  el ← this;
  match formatter el with
  | Some f => mret (deref f value)
  | None => mret value
  end.

Definition render : Method number (TemplateResult number) :=
  el ← this;
  heading ← format (Str (title el));
  let b := deref (bar el) in
  mret (html render_strings
    [ heading;
      Str (template ["left: "; "px; top: "; ""] [Num (Bar.x b); Num (Bar.y b)]);
      Bar.get_title b ]).

(** [static get styles()]: the text of the [css] template, which has no
    expressions. *)
Definition styles : string :=
  String.concat LF
    [ "";
      "      :host {";
      "        margin: 50px;";
      "        text-align: center;";
      "        min-height: 100px;";
      "        display: block;";
      "        padding: 20px;";
      "        background: #fff;";
      "        color: #333;";
      "        position: relative;";
      "      }";
      "";
      "      :host([dark-mode]) {";
      "        background: #333;";
      "        color: #fff;";
      "      }";
      "";
      "      .bar {";
      "        background: red;";
      "        width: 10px;";
      "        height: 100%;";
      "        position: absolute;";
      "      }";
      "    " ].
End title_bar.
End TitleBar.

(** ** [TitleBarTypes], the documented class *)

Module TitleBarTypes.
Section title_bar_types.
Context {number : Type} `{!Number number}.

Definition properties : list (string * PropertyDeclaration) :=
  [ ("title", mkDeclaration String_ false None);
    ("darkMode", mkDeclaration Boolean_ true (Some "dark-mode"));
    ("bar", mkDeclaration Object_ false None) ].

(** The constructor, after [super()]: four field writes. *)
Definition constructor : Method number () :=
  assign (AssignTitle "You are awesome");;
  assign (AssignDarkMode false);;
  assign (AssignBar (mkRef 0 (Bar.mk (Number_literal 0) (Number_literal 0) (Some "I am dot"))));;
  assign (AssignFormatter None).

(** [format(value, { prefix, suffix = '' } = { prefix: '' })].  The second
    argument is [None] when the caller leaves it out; the parameter
    default then supplies the object [{ prefix: '' }]. *)
Definition format (value : Value number) (options : option (gmap string (Value number)))
  : Method number string :=
  let o := default {[ "prefix" := Str "" ]} options in
  let prefix := get o "prefix" in
  let suffix := get_or o "suffix" (Str "") in
  el ← this;
  let formattedValue :=
    match formatter el with
    | Some f => deref f value
    | None => value
    end in
  mret (template [""; ""; ""; ""] [prefix; formattedValue; suffix]).

Definition render : Method number (TemplateResult number) :=
  el ← this;
  heading ← format (Str (title el)) (Some {[ "prefix" := Str "" ]});
  let b := deref (bar el) in
  mret (html render_strings
    [ Str heading;
      Str (template ["left: "; "px; top: "; ""] [Num (Bar.x b); Num (Bar.y b)]);
      if ToBoolean (Bar.get_title b) then Bar.get_title b else Str "" ]).

(** [static get styles()]: the text of the [css] template, which has no
    expressions. *)
Definition styles : string :=
  String.concat LF
    [ "";
      "      :host {";
      "        margin: 50px;";
      "        text-align: center;";
      "        min-height: 100px;";
      "        display: block;";
      "        padding: 20px;";
      "        background: #fff;";
      "        color: #333;";
      "        position: relative;";
      "      }";
      "";
      "      :host([dark-mode]) {";
      "        background: #333;";
      "        color: #fff;";
      "      }";
      "";
      "      .bar {";
      "        background: red;";
      "        width: 10px;";
      "        height: 100%;";
      "        position: absolute;";
      "      }";
      "    " ].
End title_bar_types.
End TitleBarTypes.

(** ** The LitElement base class *)

Module LitElement.

(** [String.prototype.toLowerCase] on ASCII letters. *)
Definition lower (c : ascii) : ascii :=
  let n := nat_of_ascii c in
  if (65 <=? n)%nat && (n <=? 90)%nat then ascii_of_nat (n + 32) else c.

Fixpoint toLowerCase (s : string) : string :=
  match s with
  | EmptyString => EmptyString
  | String c s' => String (lower c) (toLowerCase s')
  end.

Section lit_element.
Context {number : Type}.

(** The class's [static get properties()]. *)
Variable decls : list (string * PropertyDeclaration).

(** Modelled from the spec: the host side of an element.  The base class
    [LitElement] is imported from the lit-element package and is not
    among the sources; the spec describes it as the host re-render
    scheduling mechanism (assignments to observed properties schedule a
    re-render, batched per change cycle) and as the keeper of the
    reflected boolean attribute.  A host holds the element's fields, the
    attributes visible at its boundary, whether a re-render is scheduled,
    and how many render passes have run. *)
Record Host := mkHost {
  element : Element number;
  attributes : gmap string string;
  isUpdatePending : bool;
  renderCount : nat;
}.

(** The declaration of property [name], if the class declares it. *)
Definition declaration (name : string) : option PropertyDeclaration :=
  snd <$> List.find (λ kv, String.eqb name (fst kv)) decls.

(** The attribute a declared property is tied to: the declared
    [attribute], else the lower-cased property name. *)
Definition attributeNameForProperty (name : string) (d : PropertyDeclaration) : string :=
  default (toLowerCase name) (attribute d).

(** Modelled from the spec: a freshly constructed element [e].  No
    attribute is set, and the constructor's assignments to the observed
    properties have scheduled the first render. *)
Definition create (e : Element number) : Host := mkHost e ∅ true 0.

(** Modelled from the spec: the property setter.  The field is written;
    if the property is declared and the value differs from the old one,
    a re-render is scheduled.  An undeclared property is a plain field. *)
Definition set (a : Assignment number) (h : Host) : Host :=
  let h' := mkHost (store a (element h)) (attributes h) (isUpdatePending h) (renderCount h) in
  match declaration (property_name a) with
  | Some _ =>
      if notEqual a (element h)
      then mkHost (element h') (attributes h') true (renderCount h')
      else h'
  | None => h'
  end.

(** The boolean fields of the element, by property name. *)
Definition boolean_property (name : string) (e : Element number) : option bool :=
  if String.eqb name "darkMode" then Some (darkMode e) else None.

(** Modelled from the spec: reflecting one declared property to its
    attribute, with the reflected-boolean-attribute semantics: present
    (with an empty value) when the field is true, absent when false. *)
Definition propertyToAttribute (e : Element number) (attrs : gmap string string)
    (kv : string * PropertyDeclaration) : gmap string string :=
  let attr := attributeNameForProperty (fst kv) (snd kv) in
  if reflect (snd kv) then
    match type (snd kv), boolean_property (fst kv) e with
    | Boolean_, Some true => <[attr := ""]> attrs
    | Boolean_, Some false => delete attr attrs
    | _, _ => attrs
    end
  else attrs.

(** Modelled from the spec: one render cycle.  With no re-render
    scheduled nothing happens; otherwise the reflecting properties are
    written to their attributes, one render pass runs, and the schedule
    is cleared (all assignments made since the last cycle share it). *)
Definition performUpdate (h : Host) : Host :=
  if isUpdatePending h then
    mkHost (element h)
           (foldl (propertyToAttribute (element h)) (attributes h) decls)
           false
           (S (renderCount h))
  else h.

(** The declared property tied to attribute [attr]. *)
Definition propertyForAttribute (attr : string) : option (string * PropertyDeclaration) :=
  List.find (λ kv, String.eqb (attributeNameForProperty (fst kv) (snd kv)) attr) decls.

(** Modelled from the spec: an external change of attribute [attr] to
    [value] ([None] when it is removed).  The boundary attribute changes,
    and a declared boolean property tied to it is set, through its
    setter, to whether the attribute is present. *)
Definition attributeChangedCallback (attr : string) (value : option string) (h : Host) : Host :=
  let attrs :=
    match value with
    | Some v => <[attr := v]> (attributes h)
    | None => delete attr (attributes h)
    end in
  let h' := mkHost (element h) attrs (isUpdatePending h) (renderCount h) in
  match propertyForAttribute attr with
  | Some (name, d) =>
      match type d, boolean_property name (element h) with
      | Boolean_, Some _ => set (AssignDarkMode (bool_decide (is_Some value))) h'
      | _, _ => h'
      end
  | None => h'
  end.

(** Whether attribute [attr] is present at the boundary. *)
Definition hasAttribute (attr : string) (h : Host) : bool :=
  bool_decide (is_Some (attributes h !! attr)).

(** What can happen to a host. *)
Inductive Event :=
| PropertySet (a : Assignment number)
| AttributeChanged (attr : string) (value : option string)
| Update.

Definition step (ev : Event) (h : Host) : Host :=
  match ev with
  | PropertySet a => set a h
  | AttributeChanged attr value => attributeChangedCallback attr value h
  | Update => performUpdate h
  end.

(** The hosts that arise from a constructed element [e] by any sequence
    of events. *)
Inductive reachable (e : Element number) : Host → Prop :=
| reachable_create : reachable e (create e)
| reachable_step ev h : reachable e h → reachable e (step ev h).
End lit_element.

Arguments Host number : clear implicits.
Arguments Event number : clear implicits.

End LitElement.

(** ** Integral numbers

    Integers print in plain decimal (for magnitudes below 10^21), zero is
    the only falsy one, and an integer literal denotes itself. *)

#[export] Instance Z_Number : JS.Number Z := {|
  Number_toString := pretty;
  Number_toBoolean z := negb (Z.eqb z 0);
  Number_literal z := z;
|}.

(** ** The values used by the repository's test

    [test/title-bar.test.js] creates one element of each class and then
    assigns [darkMode = true], [bar = { x: 1, y: 2 }] and
    [formatter = value => `${value} for real!`]. *)

Module Test.

(** The instance before the constructor body has run.  The body writes
    all four fields, so nothing of this placeholder survives. *)
Definition blank : Element Z :=
  mkElement "" false (mkRef 0 (Bar.mk 0%Z 0%Z None)) None.

(** [value => `${value} for real!`] *)
Definition for_real : Formatter Z :=
  λ value, Str (template [""; " for real!"] [value]).

(** [{ x: 1, y: 2 }], a fresh object. *)
Definition bar_1_2 : Ref (Bar.t Z) := mkRef 1 (Bar.mk 1%Z 2%Z None).

(** The three assignments of the test, in order. *)
Definition assignments : list (Assignment Z) :=
  [ AssignDarkMode true; AssignBar bar_1_2; AssignFormatter (Some (mkRef 2 for_real)) ].

(** [new TitleBar()] and [new TitleBarTypes()]. *)
Definition noType : Element Z := (TitleBar.constructor blank).2.
Definition el : Element Z := (TitleBarTypes.constructor blank).2.

(** Both elements once the assignments were made. *)
Definition noType_assigned : Element Z := foldl (λ e a, store a e) noType assignments.
Definition el_assigned : Element Z := foldl (λ e a, store a e) el assignments.

(** The same assignments made through the LitElement setters of a
    [TitleBarTypes] host. *)
Definition host : LitElement.Host Z :=
  foldl (λ h a, LitElement.set TitleBarTypes.properties a h)
        (LitElement.create el) assignments.

End Test.

(** ** Formatters that do more than compute

    [format] runs [this.formatter(value)]: whatever function was assigned,
    called as a method of the element.  Such a function may read and
    write the element's fields and may keep variables of its own between
    calls.  The classes above cover the formatters that only compute a
    value from their argument; this module runs [format] and [render] of
    [TitleBarTypes] with any formatter. *)

Module Stateful.
Section stateful.
Context {number : Type} `{!Number number}.

(** What the formatters keep between calls: the variables they close
    over. *)
Context {Closure : Type}.

(** The element's fields.  The formatter field holds [null] or a function
    object, named here by its identity. *)
Record Instance := mkInstance {
  title : string;
  darkMode : bool;
  bar : Ref (Bar.t number);
  formatter : option nat;
}.

(** Everything a call can see and change: the element and the variables
    of the formatters. *)
Record World := mkWorld { this : Instance; closure : Closure }.

(** What a function object does when it is called with one argument as a
    method of the element: it returns a value and leaves a world behind. *)
Definition Formatter : Type := Value number → World → Value number * World.

(** The function objects, by identity. *)
Variable functions : nat → Formatter.

Definition Method (A : Type) : Type := World → A * World.

#[export] Instance Method_ret : MRet Method := λ A a w, (a, w).
#[export] Instance Method_bind : MBind Method :=
  λ A B k m w, let (a, w') := m w in k a w'.

(** Reading the world as it is now. *)
Definition world : Method World := λ w, (w, w).

(** [format(value, { prefix, suffix = '' } = { prefix: '' })], with the
    formatter called as the source calls it. *)
Definition format (value : Value number) (options : option (gmap string (Value number)))
  : Method string :=
  let o := default {[ "prefix" := Str "" ]} options in
  let prefix := get o "prefix" in
  let suffix := get_or o "suffix" (Str "") in
  w ← world;
  formattedValue ←
    match formatter (this w) with
    | Some f => functions f value
    | None => (mret value : Method (Value number))
    end;
  mret (template [""; ""; ""; ""] [prefix; formattedValue; suffix]).

(** [render()]: the expressions of the template are evaluated from left to
    right, so [this.bar] is read after [format] has returned. *)
Definition render : Method (TemplateResult number) :=
  w ← world;
  heading ← format (Str (title (this w))) (Some {[ "prefix" := Str "" ]});
  w' ← world;
  let b := deref (bar (this w')) in
  mret (html render_strings
    [ Str heading;
      Str (template ["left: "; "px; top: "; ""] [Num (Bar.x b); Num (Bar.y b)]);
      if ToBoolean (Bar.get_title b) then Bar.get_title b else Str "" ]).

(** An element of the classes above, with its formatter named by its
    identity. *)
Definition instance_of (el : Element number) : Instance :=
  mkInstance (Component.title el) (Component.darkMode el) (Component.bar el)
             (ref_id <$> Component.formatter el).
End stateful.

Arguments Instance number : clear implicits.
Arguments World number Closure : clear implicits.
Arguments Formatter number Closure : clear implicits.
Arguments Method number Closure A : clear implicits.

End Stateful.

(** ** Two formatters that do more than compute

    Both keep a counter [n] as their own variable. *)

Module Hooks.

(** [function (value) { this.title = `${value}!`; return value; }] *)
Definition exclaim : Stateful.Formatter Z Z :=
  λ value w,
    let e := Stateful.this w in
    (value,
     Stateful.mkWorld
       (Stateful.mkInstance (template [""; "!"] [value]) (Stateful.darkMode e)
                            (Stateful.bar e) (Stateful.formatter e))
       (Stateful.closure w)).

(** [value => `${value} ${++n}`] *)
Definition numbered : Stateful.Formatter Z Z :=
  λ value w,
    let n := (Stateful.closure w + 1)%Z in
    (Str (template [""; " "; ""] [value; Num n]),
     Stateful.mkWorld (Stateful.this w) n).

(** The test's [value => `${value} for real!`], which only computes. *)
Definition for_real : Stateful.Formatter Z Z :=
  λ value w, (Test.for_real value, w).

(** The function objects: [exclaim] is object 1, [numbered] object 2,
    [for_real] object 3. *)
Definition functions (f : nat) : Stateful.Formatter Z Z :=
  match f with
  | 1 => exclaim
  | 2 => numbered
  | _ => for_real
  end.

(** A freshly constructed [TitleBarTypes] element to which function
    object [f] was assigned as formatter, with the counter at [n]. *)
Definition assigned (f : nat) (n : Z) : Stateful.World Z Z :=
  Stateful.mkWorld
    (Stateful.mkInstance (title Test.el) (darkMode Test.el) (bar Test.el) (Some f)) n.

End Hooks.

(** ** Searching in texts *)

Module Text.

(** [String.prototype.includes]: whether [needle] occurs in [hay]. *)
Definition includes (needle hay : string) : bool :=
  match String.index 0 needle hay with
  | Some _ => true
  | None => false
  end.

End Text.

(** * Properties *)

(** ** Strings and template literals *)

Lemma append_cons (c : ascii) (s t : string) : String c s +:+ t = String c (s +:+ t).
Proof. reflexivity. Qed.

Lemma append_empty_l (s : string) : "" +:+ s = s.
Proof. reflexivity. Qed.

Lemma append_empty_r (s : string) : s +:+ "" = s.
Proof.
  induction s as [|c s IH]; [reflexivity|].
  rewrite append_cons. by f_equal.
Qed.

Lemma prefix_append (s t : string) : String.prefix s (s +:+ t) = true.
Proof.
  induction s as [|c s IH].
  - by destruct t.
  - rewrite append_cons. simpl.
    destruct (ascii_dec c c); [exact IH | congruence].
Qed.

Section template_facts.
Context {number : Type} `{!Number number}.

(** A literal with three substitutions and empty chunks is the
    concatenation of the three converted values. *)
Lemma template_three (a b c : Value number) :
  template [""; ""; ""; ""] [a; b; c] = ToString a +:+ ToString b +:+ ToString c.
Proof. cbn [template]. by rewrite !append_empty_l, append_empty_r. Qed.

Lemma get_present (o : gmap string (Value number)) key v :
  o !! key = Some v → get o key = v.
Proof. unfold get. by intros ->. Qed.

Lemma get_absent (o : gmap string (Value number)) key :
  o !! key = None → get o key = Undefined.
Proof. unfold get. by intros ->. Qed.

Lemma get_or_absent (o : gmap string (Value number)) key d :
  o !! key = None → get_or o key d = d.
Proof. unfold get_or. intros H. by rewrite (get_absent _ _ H). Qed.

Lemma get_or_string (o : gmap string (Value number)) key d s :
  o !! key = Some (Str s) → get_or o key d = Str s.
Proof. unfold get_or. intros H. by rewrite (get_present _ _ _ H). Qed.
End template_facts.

(** ** [format] *)

Section format_facts.
Context {number : Type} `{!Number number}.
Implicit Types (el : Element number) (v : Value number)
               (o : gmap string (Value number)).

Lemma default_options_prefix :
  get ({[ "prefix" := Str "" ]} : gmap string (Value number)) "prefix" = Str "".
Proof. apply get_present, lookup_singleton_eq. Qed.

Lemma default_options_suffix :
  get_or ({[ "prefix" := Str "" ]} : gmap string (Value number)) "suffix" (Str "") = Str "".
Proof. apply get_or_absent. by apply lookup_singleton_ne. Qed.

(** [format] with an options object: the destructured reads, the
    formatted value, and [this] handed back. *)
Lemma format_with_options v o el :
  TitleBarTypes.format v (Some o) el =
    (ToString (get o "prefix")
       +:+ ToString (match formatter el with Some g => deref g v | None => v end)
       +:+ ToString (get_or o "suffix" (Str "")),
     el).
Proof.
  unfold TitleBarTypes.format, mbind, Method_bind, this, mret, Method_ret.
  cbn [default from_option id]. by rewrite template_three.
Qed.

(** [format] without the options argument: the parameter default
    [{ prefix: '' }] takes its place. *)
Lemma format_without_options v el :
  TitleBarTypes.format v None el =
    (ToString (match formatter el with Some g => deref g v | None => v end), el).
Proof.
  unfold TitleBarTypes.format, mbind, Method_bind, this, mret, Method_ret.
  cbn [default from_option id].
  rewrite template_three, default_options_prefix, default_options_suffix.
  cbn [ToString]. by rewrite append_empty_l, append_empty_r.
Qed.
End format_facts.

Section format_claims.
Context {number : Type} `{!Number number}.
Implicit Types (el : Element number) (v : Value number)
               (o : gmap string (Value number)).

(** C1.  For every value [v], every element state and every options
    object carrying the strings [p] under [prefix] and [s] under
    [suffix], [format(v, options)] is [p], then the formatted value, then
    [s]: the formatted value is [formatter(v)] when a formatter is set
    and [v] itself when [formatter] is [null].  With the options argument
    left out the result is the formatted value, converted to a string,
    between an empty prefix and an empty suffix. *)
Theorem format_concatenates el v o (p s : string) :
  o !! "prefix" = Some (Str p) →
  o !! "suffix" = Some (Str s) →
  (∀ g, formatter el = Some g →
     (TitleBarTypes.format v (Some o) el).1 = p +:+ ToString (deref g v) +:+ s
     ∧ (TitleBarTypes.format v None el).1 = "" +:+ ToString (deref g v) +:+ "")
  ∧ (formatter el = None →
     (TitleBarTypes.format v (Some o) el).1 = p +:+ ToString v +:+ s
     ∧ (TitleBarTypes.format v None el).1 = "" +:+ ToString v +:+ "").
Proof.
  intros Hp Hs.
  split; [intros g Hf | intros Hf];
    rewrite format_with_options, format_without_options, Hf; cbn [fst];
    rewrite (get_present _ _ _ Hp), (get_or_string _ _ _ _ Hs);
    by rewrite append_empty_l, append_empty_r.
Qed.

(** C10.  When an options object is supplied without a [prefix] key, the
    prefix reads as [undefined] and the result starts with the text
    "undefined": it is "undefined", then the formatted value, then the
    suffix, where a missing [suffix] key still defaults to the empty
    string.  Only leaving the whole argument out brings in the default
    [{ prefix: '' }]. *)
Theorem format_missing_prefix el v o :
  o !! "prefix" = None →
  let f := match formatter el with Some g => deref g v | None => v end in
  get o "prefix" = Undefined
  ∧ String.prefix "undefined" (TitleBarTypes.format v (Some o) el).1 = true
  ∧ (TitleBarTypes.format v (Some o) el).1
      = "undefined" +:+ ToString f +:+ ToString (get_or o "suffix" (Str ""))
  ∧ (o !! "suffix" = None →
       (TitleBarTypes.format v (Some o) el).1 = "undefined" +:+ ToString f)
  ∧ (TitleBarTypes.format v None el).1 = ToString f.
Proof.
  intros Hp f.
  assert (Hres : (TitleBarTypes.format v (Some o) el).1
            = "undefined" +:+ ToString f +:+ ToString (get_or o "suffix" (Str ""))).
  { rewrite format_with_options. cbn [fst]. by rewrite (get_absent _ _ Hp). }
  split_and!.
  - by apply get_absent.
  - rewrite Hres. apply prefix_append.
  - exact Hres.
  - intros Hs. rewrite Hres, (get_or_absent _ _ _ Hs). cbn [ToString].
    by rewrite append_empty_r.
  - by rewrite format_without_options.
Qed.
End format_claims.

(** ** [render] *)

Section render_facts.
Context {number : Type} `{!Number number}.
Implicit Types (el : Element number) (b : Bar.t number).

(** Where the three expressions of the render template are bound: the
    first is the child of the heading, the second the marker's [style],
    the third the marker's [title]. *)
Lemma render_strings_bindings (heading style title : Value number) :
  let t := html render_strings [heading; style; title] in
  child_binding "h1" t = Some heading
  ∧ attribute_binding "style" t = Some style
  ∧ attribute_binding "title" t = Some title.
Proof. by split_and!. Qed.

(** The inline style literal [`left: ${x}px; top: ${y}`]. *)
Lemma style_template b :
  template ["left: "; "px; top: "; ""] [Num (Bar.x b); Num (Bar.y b)]
  = "left: " +:+ Number_toString (Bar.x b) +:+ "px; top: " +:+ Number_toString (Bar.y b).
Proof.
  cbn [template ToString].
  by rewrite append_empty_r.
Qed.

(** The guarded title [bar.title ? bar.title : '']. *)
Lemma guarded_title b :
  (if ToBoolean (Bar.get_title b) then Bar.get_title b else Str "")
  = Str (default "" (Bar.title b)).
Proof.
  unfold Bar.get_title. destruct (Bar.title b) as [s|]; [|reflexivity].
  cbn [ToBoolean default from_option id].
  destruct (String.eqb_spec s ""); by subst.
Qed.

Lemma render_types_unfold el :
  TitleBarTypes.render el =
    (html render_strings
       [ Str (ToString (match formatter el with
                        | Some g => deref g (Str (title el))
                        | None => Str (title el)
                        end));
         Str ("left: " +:+ Number_toString (Bar.x (deref (bar el)))
              +:+ "px; top: " +:+ Number_toString (Bar.y (deref (bar el))));
         Str (default "" (Bar.title (deref (bar el)))) ],
     el).
Proof.
  unfold TitleBarTypes.render, mbind, Method_bind, this at 1, mret, Method_ret.
  rewrite format_with_options, style_template, guarded_title.
  rewrite (get_present _ "prefix" (Str "")) by apply lookup_singleton_eq.
  rewrite (get_or_absent _ "suffix") by by apply lookup_singleton_ne.
  cbn [ToString]. by rewrite append_empty_l, append_empty_r.
Qed.

Lemma render_plain_unfold el :
  TitleBar.render el =
    (html render_strings
       [ match formatter el with
         | Some g => deref g (Str (title el))
         | None => Str (title el)
         end;
         Str ("left: " +:+ Number_toString (Bar.x (deref (bar el)))
              +:+ "px; top: " +:+ Number_toString (Bar.y (deref (bar el))));
         Bar.get_title (deref (bar el)) ],
     el).
Proof.
  unfold TitleBar.render, TitleBar.format, mbind, Method_bind, this, mret, Method_ret.
  rewrite style_template. by destruct (formatter el).
Qed.
End render_facts.

Section render_claims.
Context {number : Type} `{!Number number}.
Implicit Types (el : Element number).

(** X12.  The marker's [style] binding in both classes: the left offset with
    the [px] unit, the top offset as the bare number. *)
Lemma render_style_binding el :
  let b := deref (bar el) in
  let style :=
    "left: " +:+ Number_toString (Bar.x b) +:+ "px; top: " +:+ Number_toString (Bar.y b) in
  attribute_binding "style" (TitleBarTypes.render el).1 = Some (Str style)
  ∧ attribute_binding "style" (TitleBar.render el).1 = Some (Str style).
Proof.
  intros b style. rewrite render_types_unfold, render_plain_unfold. cbn [fst].
  split; apply render_strings_bindings.
Qed.

(** X13.  For every bar record, the marker rendered by [TitleBarTypes] binds its
    title attribute to [bar.title] when the record has a title and to the
    empty string when it has none (a present but empty title included). *)
Lemma render_title_binding el :
  let b := deref (bar el) in
  attribute_binding "title" (TitleBarTypes.render el).1
    = Some (Str (match Bar.title b with Some t => t | None => "" end)).
Proof.
  intros b. rewrite render_types_unfold. cbn [fst].
  apply render_strings_bindings.
Qed.

(** The plain [TitleBar] binds [bar.title] as it reads, without the
    guard: the title when present, [undefined] when absent. *)
Lemma plain_render_title_binding el :
  let b := deref (bar el) in
  attribute_binding "title" (TitleBar.render el).1
    = Some (match Bar.title b with Some t => Str t | None => Undefined end).
Proof.
  intros b. rewrite render_plain_unfold. cbn [fst].
  apply render_strings_bindings.
Qed.

(** C4.  Whatever the instance held before, the constructor body leaves
    [title = "You are awesome"], [darkMode = false],
    [bar = {x: 0, y: 0, title: "I am dot"}] and [formatter = null], in
    both classes; it reads nothing, so its outcome is the same from any
    two starting instances. *)
Theorem constructor_initializes (e0 e1 : Element number) :
  let e := (TitleBarTypes.constructor e0).2 in
  title e = "You are awesome"
  ∧ darkMode e = false
  ∧ deref (bar e) = Bar.mk (Number_literal 0) (Number_literal 0) (Some "I am dot")
  ∧ formatter e = None
  ∧ (TitleBar.constructor e0).2 = e
  ∧ (TitleBarTypes.constructor e1).2 = e
  ∧ (TitleBarTypes.constructor e0).1 = ().
Proof. by split_and!. Qed.
End render_claims.

(** C2.  The static property declaration of both classes has three keys,
    [title], [darkMode] and [bar], in that order: its key set has size 3,
    not 2, and [bar] is one of the trigger properties. *)
Theorem properties_keys :
  Object_keys TitleBar.properties = ["title"; "darkMode"; "bar"]
  ∧ Object_keys TitleBarTypes.properties = ["title"; "darkMode"; "bar"]
  ∧ length (Object_keys TitleBar.properties) = 3
  ∧ length (Object_keys TitleBar.properties) ≠ 2.
Proof. by split_and!. Qed.

(** C5.  The test gives both elements the bar [{ x: 1, y: 2 }], which has
    no title.  The marker rendered by [TitleBarTypes] then binds its title
    attribute to the empty string; the marker rendered by the plain
    [TitleBar], which lacks the guard, binds it to [undefined]. *)
Theorem plain_render_title_absent :
  Bar.title (deref (bar Test.noType_assigned)) = None
  ∧ bar Test.el_assigned = bar Test.noType_assigned
  ∧ attribute_binding "title" (TitleBarTypes.render Test.el_assigned).1 = Some (Str "")
  ∧ attribute_binding "title" (TitleBar.render Test.noType_assigned).1 = Some Undefined
  ∧ attribute_binding "title" (TitleBar.render Test.noType_assigned).1 ≠ Some (Str "").
Proof. by split_and!. Qed.

(** C6.  With the test's bar [{ x: 1, y: 2 }] both classes emit the style
    ["left: 1px; top: 2"]: the left offset carries the pixel unit, the top
    offset does not, and the string does not end in [px].  The default bar
    gives ["left: 0px; top: 0"]. *)
Theorem render_style_test_bar :
  attribute_binding "style" (TitleBarTypes.render Test.el_assigned).1
    = Some (Str "left: 1px; top: 2")
  ∧ attribute_binding "style" (TitleBar.render Test.noType_assigned).1
    = Some (Str "left: 1px; top: 2")
  ∧ ends_with "px" "left: 1px; top: 2" = false
  ∧ attribute_binding "style" (TitleBarTypes.render Test.el).1
    = Some (Str "left: 0px; top: 0").
Proof. by split_and!. Qed.

(** ** Scheduling and reflection on a [TitleBarTypes] host *)

Section host_facts.
Context {number : Type}.
Implicit Types (h : LitElement.Host number) (a : Assignment number).

Local Abbreviation P := TitleBarTypes.properties.
Local Abbreviation set := (LitElement.set P).
Local Abbreviation performUpdate := (LitElement.performUpdate P).
Local Abbreviation attributeChangedCallback := (LitElement.attributeChangedCallback P).
Local Abbreviation step := (LitElement.step P).
Local Abbreviation reachable := (LitElement.reachable P).
Local Abbreviation hasAttribute := LitElement.hasAttribute.
Local Abbreviation element := LitElement.element.
Local Abbreviation attributes := LitElement.attributes.
Local Abbreviation isUpdatePending := LitElement.isUpdatePending.
Local Abbreviation renderCount := LitElement.renderCount.

(** Assigning [formatter] only writes the field. *)
Lemma set_formatter h f :
  set (AssignFormatter f) h
  = LitElement.mkHost (store (AssignFormatter f) (element h))
      (attributes h) (isUpdatePending h) (renderCount h).
Proof. reflexivity. Qed.

(** Assigning a declared property writes the field and keeps the
    boundary attributes and the render count. *)
Lemma set_frame a h :
  element (set a h) = store a (element h)
  ∧ attributes (set a h) = attributes h
  ∧ renderCount (set a h) = renderCount h.
Proof.
  unfold LitElement.set.
  destruct (LitElement.declaration P (property_name a));
    [destruct (notEqual a (element h))|]; done.
Qed.

Lemma set_pending a h :
  isUpdatePending (set a h)
  = isUpdatePending h
    || (bool_decide (property_name a ∈ Object_keys P) && notEqual a (element h)).
Proof.
  destruct a; unfold LitElement.set; cbn -[notEqual];
    try (by rewrite orb_false_r);
    by destruct (notEqual _ _), (isUpdatePending h).
Qed.

(** One render cycle with a re-render scheduled: [dark-mode] is made to
    follow [darkMode], and one more render pass has run. *)
Lemma performUpdate_pending h :
  isUpdatePending h = true →
  performUpdate h
  = LitElement.mkHost (element h)
      (if darkMode (element h)
       then <["dark-mode" := ""]> (attributes h)
       else delete "dark-mode" (attributes h))
      false (S (renderCount h)).
Proof.
  intros Hp. unfold LitElement.performUpdate. rewrite Hp.
  cbn. by destruct (darkMode (element h)).
Qed.

Lemma performUpdate_idle h :
  isUpdatePending h = false → performUpdate h = h.
Proof. intros Hp. unfold LitElement.performUpdate. by rewrite Hp. Qed.

Lemma hasAttribute_performUpdate h :
  isUpdatePending h = true →
  hasAttribute "dark-mode" (performUpdate h) = darkMode (element h).
Proof.
  intros Hp. rewrite (performUpdate_pending _ Hp).
  unfold LitElement.hasAttribute. cbn.
  destruct (darkMode (element h)).
  - rewrite lookup_insert_eq. by apply bool_decide_eq_true.
  - rewrite lookup_delete_eq. apply bool_decide_eq_false. by intros [? ?].
Qed.

(** An external change of [dark-mode] sets the attribute and, through
    the setter, the field. *)
Lemma attributeChangedCallback_dark_mode (value : option string) h :
  attributeChangedCallback "dark-mode" value h
  = set (AssignDarkMode (bool_decide (is_Some value)))
      (LitElement.mkHost (element h)
         (match value with
          | Some v => <["dark-mode" := v]> (attributes h)
          | None => delete "dark-mode" (attributes h)
          end)
         (isUpdatePending h) (renderCount h)).
Proof. reflexivity. Qed.

(** An external change of any other attribute leaves the fields, the
    schedule and the [dark-mode] attribute alone. *)
Lemma attributeChangedCallback_other (attr : string) (value : option string) h :
  attr ≠ "dark-mode" →
  element (attributeChangedCallback attr value h) = element h
  ∧ isUpdatePending (attributeChangedCallback attr value h) = isUpdatePending h
  ∧ hasAttribute "dark-mode" (attributeChangedCallback attr value h)
    = hasAttribute "dark-mode" h.
Proof.
  intros Hne.
  assert (Hattr : ∀ h', element h' = element h →
            isUpdatePending h' = isUpdatePending h →
            attributes h' = match value with
                            | Some v => <[attr := v]> (attributes h)
                            | None => delete attr (attributes h)
                            end →
            element h' = element h
            ∧ isUpdatePending h' = isUpdatePending h
            ∧ hasAttribute "dark-mode" h' = hasAttribute "dark-mode" h).
  { intros h' He Hp Ha. split_and!; [done..|].
    unfold LitElement.hasAttribute. rewrite Ha.
    destruct value; by rewrite ?lookup_insert_ne, ?lookup_delete_ne. }
  unfold LitElement.attributeChangedCallback, LitElement.propertyForAttribute.
  cbn [List.find TitleBarTypes.properties fst snd
       LitElement.attributeNameForProperty attribute default from_option id].
  change (LitElement.toLowerCase "title") with "title".
  change (LitElement.toLowerCase "bar") with "bar".
  destruct (String.eqb_spec "title" attr) as [<-|_]; [by apply Hattr|].
  destruct (String.eqb_spec "dark-mode" attr) as [<-|_]; [done|].
  destruct (String.eqb_spec "bar" attr) as [<-|_]; by apply Hattr.
Qed.

(** Between render cycles the [dark-mode] attribute may lag behind the
    field, but only while a re-render is scheduled. *)
Lemma reachable_in_sync e0 h :
  reachable e0 h →
  isUpdatePending h = true
  ∨ hasAttribute "dark-mode" h = darkMode (element h).
Proof.
  induction 1 as [|ev h Hreach IH]; [by left|].
  destruct ev as [a|attr value|]; cbn [LitElement.step].
  - (* a property is assigned *)
    destruct IH as [Hp|Hsync]; [left; by rewrite set_pending, Hp|].
    destruct (set_frame a h) as (He & Ha & _).
    unfold LitElement.hasAttribute in *. rewrite Ha, He, Hsync.
    destruct a as [s|b|r|f]; try (by right).
    rewrite set_pending. cbn [store darkMode notEqual property_name].
    destruct b, (darkMode (element h)), (isUpdatePending h); cbn; auto.
  - (* an attribute changes *)
    destruct (decide (attr = "dark-mode")) as [->|Hne].
    + rewrite attributeChangedCallback_dark_mode. right.
      match goal with |- context [set ?a ?h'] =>
        destruct (set_frame a h') as (He & Ha & _) end.
      unfold LitElement.hasAttribute. rewrite Ha, He. cbn.
      destruct value; cbn.
      * by rewrite lookup_insert_eq.
      * by rewrite lookup_delete_eq.
    + destruct (attributeChangedCallback_other attr value h Hne) as (-> & -> & ->).
      exact IH.
  - (* a render cycle runs *)
    destruct (isUpdatePending h) eqn:Hp.
    + right. rewrite (hasAttribute_performUpdate _ Hp).
      by rewrite (performUpdate_pending _ Hp).
    + rewrite (performUpdate_idle _ Hp). destruct IH; [congruence|by right].
Qed.
End host_facts.

Section host_claims.
Context {number : Type}.
Implicit Types (h : LitElement.Host number) (a : Assignment number).

Local Abbreviation P := TitleBarTypes.properties.
Local Abbreviation set := (LitElement.set P).
Local Abbreviation performUpdate := (LitElement.performUpdate P).
Local Abbreviation attributeChangedCallback := (LitElement.attributeChangedCallback P).
Local Abbreviation reachable := (LitElement.reachable P).
Local Abbreviation hasAttribute := LitElement.hasAttribute.
Local Abbreviation element := LitElement.element.
Local Abbreviation isUpdatePending := LitElement.isUpdatePending.
Local Abbreviation renderCount := LitElement.renderCount.

(** C3.  [formatter] is not among the declared properties.  Assigning it
    leaves [title], [darkMode] and [bar] as they were, schedules nothing
    and runs no render pass: the schedule and the render count are those
    of before, and with nothing scheduled the next cycle renders
    nothing.  Assigning a declared property ([title], [darkMode] or
    [bar]) a value that differs from the current one schedules a
    re-render, and the next cycle runs exactly one more render pass. *)
Theorem formatter_not_observed h :
  ("formatter" ∉ Object_keys P)
  ∧ (∀ f,
       let h' := set (AssignFormatter f) h in
       title (element h') = title (element h)
       ∧ darkMode (element h') = darkMode (element h)
       ∧ bar (element h') = bar (element h)
       ∧ isUpdatePending h' = isUpdatePending h
       ∧ renderCount h' = renderCount h
       ∧ (isUpdatePending h = false → renderCount (performUpdate h') = renderCount h))
  ∧ (∀ a,
       property_name a ∈ Object_keys P →
       notEqual a (element h) = true →
       isUpdatePending (set a h) = true
       ∧ renderCount (performUpdate (set a h)) = S (renderCount h)).
Proof.
  split_and!.
  - intros Hin. apply list_elem_of_In in Hin.
    destruct Hin as [?|[?|[?|[]]]]; discriminate.
  - intros f h'. subst h'. rewrite set_formatter. cbn.
    split_and!; try done.
    intros Hp. rewrite performUpdate_idle; done.
  - intros a Hin Hne.
    assert (Hp : isUpdatePending (set a h) = true).
    { rewrite set_pending, Hne, (bool_decide_eq_true_2 _ Hin). apply orb_true_r. }
    split; [exact Hp|].
    rewrite (performUpdate_pending _ Hp). cbn.
    by destruct (set_frame a h) as (_ & _ & ->).
Qed.

(** C8.  [darkMode] is declared as a boolean property reflected to the
    attribute [dark-mode].  On any host reached from a constructed
    element, assigning [darkMode = b] and letting the next render cycle
    run leaves the attribute present exactly when [b] is true; and an
    external change of the attribute sets the field to whether the
    attribute is now present. *)
Theorem darkMode_reflected (e0 : Element number) h (b : bool) (value : option string) :
  reachable e0 h →
  LitElement.declaration P "darkMode"
    = Some (mkDeclaration Boolean_ true (Some "dark-mode"))
  ∧ hasAttribute "dark-mode" (performUpdate (set (AssignDarkMode b) h)) = b
  ∧ darkMode (element (attributeChangedCallback "dark-mode" value h))
    = bool_decide (is_Some value)
  ∧ hasAttribute "dark-mode" (attributeChangedCallback "dark-mode" value h)
    = bool_decide (is_Some value).
Proof.
  intros Hreach. split_and!.
  - reflexivity.
  - pose proof (reachable_in_sync e0 _
      (LitElement.reachable_step P e0 (LitElement.PropertySet (AssignDarkMode b)) h Hreach))
      as Hsync.
    cbn [LitElement.step] in Hsync.
    destruct (set_frame (AssignDarkMode b) h) as (He & _ & _).
    destruct (isUpdatePending (set (AssignDarkMode b) h)) eqn:Hp.
    + by rewrite (hasAttribute_performUpdate _ Hp), He.
    + rewrite (performUpdate_idle _ Hp).
      destruct Hsync as [?| ->]; [done|by rewrite He].
  - rewrite attributeChangedCallback_dark_mode.
    match goal with |- context [set ?a ?h'] =>
      by destruct (set_frame a h') as (-> & _ & _) end.
  - rewrite attributeChangedCallback_dark_mode.
    match goal with |- context [set ?a ?h'] =>
      destruct (set_frame a h') as (_ & Ha & _) end.
    unfold LitElement.hasAttribute. rewrite Ha. cbn.
    destruct value; by rewrite ?lookup_insert_eq, ?lookup_delete_eq.
Qed.
End host_claims.

(** ** The theorems at the values of the repository's test *)

(** [format('foo', { prefix: '...', suffix: '!' })] on the element of the
    test, whose formatter appends [" for real!"], and [format(42)] on a
    fresh element. *)
Lemma format_concatenates_witness :
  (TitleBarTypes.format (Str "foo")
     (Some {[ "prefix" := Str "..."; "suffix" := Str "!" ]}) Test.el_assigned).1
    = "...foo for real!!"
  ∧ (TitleBarTypes.format (Num 42%Z) None Test.el).1 = "42".
Proof.
  split.
  - exact (proj1 (proj1 (format_concatenates Test.el_assigned (Str "foo")
                           {[ "prefix" := Str "..."; "suffix" := Str "!" ]} "..." "!"
                           eq_refl eq_refl)
                   (mkRef 2 Test.for_real) eq_refl)).
  - exact (proj2 (proj2 (format_concatenates Test.el (Num 42%Z)
                           {[ "prefix" := Str "..."; "suffix" := Str "!" ]} "..." "!"
                           eq_refl eq_refl)
                   eq_refl)).
Defined.

(** [format('foo', {})] and [format('foo', { suffix: '!' })]. *)
Lemma format_missing_prefix_witness :
  (TitleBarTypes.format (Str "foo") (Some ∅) Test.el).1 = "undefinedfoo"
  ∧ (TitleBarTypes.format (Str "foo") (Some {[ "suffix" := Str "!" ]}) Test.el).1
    = "undefinedfoo!".
Proof.
  split.
  - exact (proj1 (proj2 (proj2 (proj2
      (format_missing_prefix Test.el (Str "foo") ∅ eq_refl)))) eq_refl).
  - exact (proj1 (proj2 (proj2
      (format_missing_prefix Test.el (Str "foo") {[ "suffix" := Str "!" ]} eq_refl)))).
Defined.

(** After the first render of a fresh element: assigning the test's bar
    schedules the second render pass, assigning its formatter none. *)
Lemma formatter_not_observed_witness :
  let h := LitElement.performUpdate TitleBarTypes.properties (LitElement.create Test.el) in
  LitElement.renderCount h = 1
  ∧ LitElement.renderCount
      (LitElement.performUpdate TitleBarTypes.properties
         (LitElement.set TitleBarTypes.properties
            (AssignFormatter (Some (mkRef 2 Test.for_real))) h)) = 1
  ∧ LitElement.renderCount
      (LitElement.performUpdate TitleBarTypes.properties
         (LitElement.set TitleBarTypes.properties (AssignBar Test.bar_1_2) h)) = 2.
Proof.
  intros h. split_and!.
  - reflexivity.
  - apply (proj1 (proj2 (formatter_not_observed h)) (Some (mkRef 2 Test.for_real))).
    reflexivity.
  - apply (proj2 (proj2 (formatter_not_observed h)) (AssignBar Test.bar_1_2)).
    + cbn. set_solver.
    + reflexivity.
Defined.

(** The host of the test, reached by its three assignments: switching
    dark mode off again removes the attribute at the next render cycle. *)
Lemma darkMode_reflected_witness :
  LitElement.reachable TitleBarTypes.properties Test.el Test.host
  ∧ LitElement.hasAttribute "dark-mode"
      (LitElement.performUpdate TitleBarTypes.properties
         (LitElement.set TitleBarTypes.properties (AssignDarkMode false) Test.host))
    = false.
Proof.
  assert (Hreach : LitElement.reachable TitleBarTypes.properties Test.el Test.host).
  { exact (LitElement.reachable_step _ _
             (LitElement.PropertySet (AssignFormatter (Some (mkRef 2 Test.for_real)))) _
          (LitElement.reachable_step _ _ (LitElement.PropertySet (AssignBar Test.bar_1_2)) _
          (LitElement.reachable_step _ _ (LitElement.PropertySet (AssignDarkMode true)) _
          (LitElement.reachable_create _ _)))). }
  split; [exact Hreach|].
  apply (darkMode_reflected Test.el Test.host false None Hreach).
Defined.

(** * Further properties of the two classes *)

(** ** More on strings *)

Lemma append_assoc (a b c : string) : (a +:+ b) +:+ c = a +:+ b +:+ c.
Proof.
  induction a as [|x a IH]; [reflexivity|].
  rewrite !append_cons. by f_equal.
Qed.

Lemma length_append (a b : string) :
  String.length (a +:+ b) = (String.length a + String.length b)%nat.
Proof.
  induction a as [|x a IH]; [reflexivity|].
  rewrite append_cons. cbn [String.length]. by rewrite IH.
Qed.

(** Cancelling a common ending. *)
Lemma append_inj_r (a b s : string) : a +:+ s = b +:+ s → a = b.
Proof.
  revert b. induction a as [|x a IH]; intros [|y b] Heq.
  - reflexivity.
  - apply (f_equal String.length) in Heq.
    rewrite append_cons, append_empty_l in Heq. cbn [String.length] in Heq.
    rewrite length_append in Heq. lia.
  - apply (f_equal String.length) in Heq.
    rewrite append_cons, append_empty_l in Heq. cbn [String.length] in Heq.
    rewrite length_append in Heq. lia.
  - rewrite !append_cons in Heq. injection Heq as -> Heq.
    f_equal. by apply IH.
Qed.

Lemma rev_app_append (a s acc : string) :
  String.rev_app (a +:+ s) acc = String.rev_app s (String.rev_app a acc).
Proof.
  revert acc. induction a as [|x a IH]; intros acc; [reflexivity|].
  rewrite append_cons. cbn [String.rev_app]. apply IH.
Qed.

Lemma rev_app_acc (s acc : string) :
  String.rev_app s acc = String.rev s +:+ acc.
Proof.
  unfold String.rev. revert acc.
  induction s as [|x s IH]; intros acc; [reflexivity|].
  cbn [String.rev_app]. rewrite (IH (String x acc)), (IH (String x "")).
  by rewrite append_assoc.
Qed.

Lemma rev_append (a s : string) : String.rev (a +:+ s) = String.rev s +:+ String.rev a.
Proof. unfold String.rev at 1. by rewrite rev_app_append, rev_app_acc. Qed.

(** A text ends with what was appended to it last. *)
Lemma ends_with_append (a s : string) : ends_with s (a +:+ s) = true.
Proof. unfold ends_with. rewrite rev_append. apply prefix_append. Qed.

(** ** More on [format] *)

Section format_more.
Context {number : Type} `{!Number number}.
Implicit Types (el : Element number) (v : Value number)
               (o : gmap string (Value number))
               (options : option (gmap string (Value number))).

Lemma plain_format_unfold v el :
  TitleBar.format v el
  = (match formatter el with Some g => deref g v | None => v end, el).
Proof.
  unfold TitleBar.format, mbind, Method_bind, this, mret, Method_ret.
  by destruct (formatter el).
Qed.

(** X1.  The two [format] methods agree: the documented one, called without
    options, returns the plain one's result converted to a string, and
    with options it wraps that same text between the prefix and the
    suffix it read. *)
Theorem format_agrees_with_plain el v o :
  (TitleBarTypes.format v None el).1 = ToString (TitleBar.format v el).1
  ∧ (TitleBarTypes.format v (Some o) el).1
    = ToString (get o "prefix")
      +:+ (TitleBarTypes.format v None el).1
      +:+ ToString (get_or o "suffix" (Str "")).
Proof.
  by rewrite format_with_options, format_without_options, plain_format_unfold.
Qed.

(** X2.  Setting a formatter [g] amounts to applying [g] to the value first:
    [format(v)] with the formatter set is [format(g(v))] with it unset,
    for the same options. *)
Theorem format_formatter_composes el (g : Ref (Formatter number)) v options :
  formatter el = Some g →
  (TitleBarTypes.format v options el).1
  = (TitleBarTypes.format (deref g v) options (store (AssignFormatter None) el)).1.
Proof.
  intros Hg. destruct options as [o|].
  - rewrite !format_with_options. cbn [fst store formatter]. by rewrite Hg.
  - rewrite !format_without_options. cbn [fst store formatter]. by rewrite Hg.
Qed.

(** X3.  Only the [prefix] and [suffix] keys of the options object are read:
    two objects that agree on these two keys give the same result,
    whatever else they hold. *)
Theorem format_ignores_other_keys el v o o' :
  o !! "prefix" = o' !! "prefix" →
  o !! "suffix" = o' !! "suffix" →
  TitleBarTypes.format v (Some o) el = TitleBarTypes.format v (Some o') el.
Proof.
  intros Hp Hs. rewrite !format_with_options.
  unfold get_or, get. by rewrite Hp, Hs.
Qed.

(** X4.  The suffix default applies to [undefined] only.  A suffix key holding
    [undefined] is treated like a missing key, and the result ends with
    the formatted value; a suffix key holding [null] is printed, and the
    result ends with the text "null". *)
Theorem format_suffix_default el v o :
  let f := match formatter el with Some g => deref g v | None => v end in
  (o !! "suffix" = Some Undefined →
     (TitleBarTypes.format v (Some o) el).1 = ToString (get o "prefix") +:+ ToString f)
  ∧ (o !! "suffix" = Some Null →
     (TitleBarTypes.format v (Some o) el).1
     = ToString (get o "prefix") +:+ ToString f +:+ "null").
Proof.
  intros f. split; intros Hs; rewrite format_with_options; cbn [fst];
    unfold get_or; rewrite (get_present _ _ _ Hs); cbn [ToString];
    by rewrite ?append_empty_r.
Qed.

(** What [format] reads as prefix and as suffix, for any way of passing
    the options. *)
Lemma format_decompose v options el :
  ∃ p s : string,
    ∀ v' el',
      (TitleBarTypes.format v' options el').1
      = p +:+ ToString (match formatter el' with
                        | Some g => deref g v'
                        | None => v'
                        end) +:+ s.
Proof.
  destruct options as [o|].
  - exists (ToString (get o "prefix")), (ToString (get_or o "suffix" (Str ""))).
    intros v' el'. by rewrite format_with_options.
  - exists "", "". intros v' el'.
    by rewrite format_without_options, append_empty_l, append_empty_r.
Qed.

(** X5.  Without a formatter, [format] loses nothing of the value: two values
    formatted to the same text under the same options have the same
    string conversion. *)
Theorem format_injective el v v' options :
  formatter el = None →
  (TitleBarTypes.format v options el).1 = (TitleBarTypes.format v' options el).1 →
  ToString v = ToString v'.
Proof.
  intros Hf Heq.
  destruct (format_decompose v options el) as (p & s & Hdec).
  rewrite !Hdec, Hf in Heq.
  apply String.app_inj in Heq. by apply append_inj_r in Heq.
Qed.

(** X6.  The result of [format] starts with the prefix it read, ends with the
    suffix it read, and is as long as the prefix, the formatted value and
    the suffix together: nothing is inserted between them. *)
Theorem format_affixes el v o :
  let f := match formatter el with Some g => deref g v | None => v end in
  let p := ToString (get o "prefix") in
  let s := ToString (get_or o "suffix" (Str "")) in
  let r := (TitleBarTypes.format v (Some o) el).1 in
  String.prefix p r = true
  ∧ ends_with s r = true
  ∧ String.length r
    = (String.length p + String.length (ToString f) + String.length s)%nat.
Proof.
  intros f p s r. subst r. rewrite format_with_options. cbn [fst].
  fold f p s. split_and!.
  - apply prefix_append.
  - rewrite <- append_assoc. apply ends_with_append.
  - rewrite !length_append. lia.
Qed.
End format_more.

(** ** More on [render] *)

Section render_more.
Context {number : Type} `{!Number number}.
Implicit Types (el : Element number).

(** X7.  The heading shows [format(title)]: in [TitleBarTypes] the text that
    [format] returns when called without options (the [{ prefix: '' }]
    that [render] passes changes nothing), in [TitleBar] the value that
    its [format] returns. *)
Theorem render_heading_is_format el :
  child_binding "h1" (TitleBarTypes.render el).1
    = Some (Str (TitleBarTypes.format (Str (title el)) None el).1)
  ∧ child_binding "h1" (TitleBar.render el).1
    = Some (TitleBar.format (Str (title el)) el).1.
Proof.
  rewrite render_types_unfold, render_plain_unfold.
  rewrite format_without_options, plain_format_unfold. cbn [fst].
  split; apply render_strings_bindings.
Qed.

(** X8.  [TitleBarTypes.render] binds strings only, one for each gap between
    its four static strings: whatever the formatter returns and whether or
    not the bar has a title, no expression is bound to [undefined] or to
    another non-string value. *)
Theorem render_binds_strings el :
  let t := (TitleBarTypes.render el).1 in
  Forall (λ v, ∃ s : string, v = Str s) (values t)
  ∧ length (strings t) = S (length (values t)).
Proof.
  intros t. subst t. rewrite render_types_unfold. cbn [fst values strings].
  split; [|reflexivity].
  repeat constructor; eexists; reflexivity.
Qed.


(** X10.  The two classes render the same description whenever the bar has a
    title and the formatter, if one is set, returns a string for the
    title.  They differ only where [TitleBarTypes] converts: a missing
    bar title and a formatted title that is not a string. *)
Theorem render_classes_agree el (t : string) :
  Bar.title (deref (bar el)) = Some t →
  (∀ g, formatter el = Some g → ∃ s : string, deref g (Str (title el)) = Str s) →
  TitleBar.render el = TitleBarTypes.render el.
Proof.
  intros Ht Hg. rewrite render_types_unfold, render_plain_unfold.
  unfold Bar.get_title. rewrite Ht. cbn [default from_option id].
  destruct (formatter el) as [g|]; [|reflexivity].
  destruct (Hg g eq_refl) as [s ->]. reflexivity.
Qed.

(** X11.  With a formatter that appends [" for real!"] to its argument, as the
    one the test assigns, the heading is the title followed by
    [" for real!"], for every title. *)
Theorem render_heading_for_real el (g : Ref (Formatter number)) :
  formatter el = Some g →
  (∀ v, deref g v = Str (template [""; " for real!"] [v])) →
  child_binding "h1" (TitleBarTypes.render el).1
    = Some (Str (title el +:+ " for real!"))
  ∧ child_binding "h1" (TitleBar.render el).1
    = Some (Str (title el +:+ " for real!")).
Proof.
  intros Hf Hg. rewrite render_types_unfold, render_plain_unfold, Hf, Hg.
  cbn [fst template ToString].
  rewrite append_empty_l, append_empty_r.
  split; apply render_strings_bindings.
Qed.
End render_more.

(** X14.  The style sheet and the template do not name the same class: the
    marker is rendered with [class="dot"], for which [styles] has no rule,
    and the rule [styles] has for [.bar] matches no rendered element.  The
    dark rule selects on the attribute [dark-mode], the one that the
    [darkMode] declaration names. *)
Theorem styles_selectors :
  Text.includes ("class=" +:+ DQ +:+ "dot" +:+ DQ) (String.concat "" render_strings) = true
  ∧ Text.includes ".dot" TitleBarTypes.styles = false
  ∧ Text.includes ".bar" TitleBarTypes.styles = true
  ∧ Text.includes "bar" (String.concat "" render_strings) = false
  ∧ match LitElement.declaration TitleBarTypes.properties "darkMode" with
    | Some d =>
        Text.includes
          (":host([" +:+ LitElement.attributeNameForProperty "darkMode" d +:+ "])")
          TitleBarTypes.styles = true
    | None => False
    end
  ∧ TitleBar.styles = TitleBarTypes.styles.
Proof. split_and!; by vm_compute. Qed.

(** ** The further properties at the values of the repository's test *)

(** The element of the test, whose formatter appends [" for real!"]:
    formatting ["foo"] there is formatting ["foo for real!"] without a
    formatter. *)
Lemma format_formatter_composes_witness :
  (TitleBarTypes.format (Str "foo") (Some {[ "prefix" := Str "..." ]}) Test.el_assigned).1
  = (TitleBarTypes.format (Str "foo for real!") (Some {[ "prefix" := Str "..." ]})
       (store (AssignFormatter None) Test.el_assigned)).1.
Proof.
  exact (format_formatter_composes Test.el_assigned (mkRef 2 Test.for_real)
           (Str "foo") (Some {[ "prefix" := Str "..." ]}) eq_refl).
Defined.

(** [{ prefix: '>' }] and [{ prefix: '>', title: 'x' }]. *)
Lemma format_ignores_other_keys_witness :
  TitleBarTypes.format (Str "foo") (Some {[ "prefix" := Str ">" ]}) Test.el
  = TitleBarTypes.format (Str "foo")
      (Some {[ "prefix" := Str ">"; "title" := Str "x" ]}) Test.el.
Proof.
  apply (format_ignores_other_keys Test.el (Str "foo")
           {[ "prefix" := Str ">" ]} {[ "prefix" := Str ">"; "title" := Str "x" ]});
    reflexivity.
Defined.

(** [{ prefix: 'a', suffix: undefined }] and [{ prefix: 'a', suffix: null }]. *)
Lemma format_suffix_default_witness :
  (TitleBarTypes.format (Str "foo")
     (Some {[ "prefix" := Str "a"; "suffix" := Undefined ]}) Test.el).1 = "afoo"
  ∧ (TitleBarTypes.format (Str "foo")
       (Some {[ "prefix" := Str "a"; "suffix" := Null ]}) Test.el).1 = "afoonull".
Proof.
  split.
  - exact (proj1 (format_suffix_default Test.el (Str "foo")
                    {[ "prefix" := Str "a"; "suffix" := Undefined ]}) eq_refl).
  - exact (proj2 (format_suffix_default Test.el (Str "foo")
                    {[ "prefix" := Str "a"; "suffix" := Null ]}) eq_refl).
Defined.

(** The number [1] and the string ["1"] format to the same text. *)
Lemma format_injective_witness :
  (TitleBarTypes.format (Num 1%Z) None Test.el).1
    = (TitleBarTypes.format (Str "1") None Test.el).1
  ∧ ToString (Num 1%Z) = ToString (Str "1" : Value Z).
Proof.
  split; [reflexivity|].
  apply (format_injective Test.el (Num 1%Z) (Str "1") None); reflexivity.
Defined.


(** A fresh element with the test's formatter: its bar has the title
    ["I am dot"] and the formatter returns a string. *)
Lemma render_classes_agree_witness :
  let el := store (AssignFormatter (Some (mkRef 2 Test.for_real))) Test.el in
  TitleBar.render el = TitleBarTypes.render el.
Proof.
  intros el.
  apply (render_classes_agree el "I am dot"); [reflexivity|].
  intros g Hg. injection Hg as <-. eexists. reflexivity.
Defined.

(** The heading of the test's element: ["You are awesome for real!"]. *)
Lemma render_heading_for_real_witness :
  child_binding "h1" (TitleBarTypes.render Test.el_assigned).1
    = Some (Str "You are awesome for real!")
  ∧ child_binding "h1" (TitleBar.render Test.noType_assigned).1
    = Some (Str "You are awesome for real!").
Proof.
  split.
  - exact (proj1 (render_heading_for_real Test.el_assigned (mkRef 2 Test.for_real)
                    eq_refl (λ v, eq_refl))).
  - exact (proj2 (render_heading_for_real Test.noType_assigned (mkRef 2 Test.for_real)
                    eq_refl (λ v, eq_refl))).
Defined.

(** * [format] and [render] with any formatter *)

Section stateful_facts.
Context {number : Type} `{!Number number} {Closure : Type}.
Variable F : nat → Stateful.Formatter number Closure.
Implicit Types (v : Value number) (w : Stateful.World number Closure)
               (options : option (gmap string (Value number))).

(** One call of [format]: the formatter, if there is one, runs once on the
    value, and the world it leaves is the world [format] leaves. *)
Lemma format_run v options w :
  Stateful.format F v options w
  = let o := default {[ "prefix" := Str "" ]} options in
    match Stateful.formatter (Stateful.this w) with
    | Some f =>
        (ToString (get o "prefix") +:+ ToString (F f v w).1
           +:+ ToString (get_or o "suffix" (Str "")),
         (F f v w).2)
    | None =>
        (ToString (get o "prefix") +:+ ToString v
           +:+ ToString (get_or o "suffix" (Str "")),
         w)
    end.
Proof.
  unfold Stateful.format, mbind, Stateful.Method_bind, Stateful.world,
    mret, Stateful.Method_ret.
  destruct (Stateful.formatter (Stateful.this w)) as [f|].
  - destruct (F f v w) as [r w']. cbn [fst snd]. by rewrite template_three.
  - by rewrite template_three.
Qed.

(** One call of [render]: [format] runs once on the title, and the bar is
    read from the world it leaves. *)
Lemma render_run w :
  Stateful.render F w
  = let call := Stateful.format F (Str (Stateful.title (Stateful.this w)))
                  (Some {[ "prefix" := Str "" ]}) w in
    let b := deref (Stateful.bar (Stateful.this call.2)) in
    (html render_strings
       [ Str call.1;
         Str ("left: " +:+ Number_toString (Bar.x b)
              +:+ "px; top: " +:+ Number_toString (Bar.y b));
         Str (default "" (Bar.title b)) ],
     call.2).
Proof.
  unfold Stateful.render, mbind, Stateful.Method_bind, Stateful.world,
    mret, Stateful.Method_ret.
  cbv beta iota zeta.
  destruct (Stateful.format F _ _ w) as [heading w'].
  cbn [fst snd].
  by rewrite style_template, guarded_title.
Qed.

(** With formatters that only compute, [format] and [render] are the
    methods of [TitleBarTypes] above, and the world stays as it was. *)
Lemma stateful_refines (el : Element number) (c : Closure) v options :
  (∀ r, formatter el = Some r → ∀ v' w', F (ref_id r) v' w' = (deref r v', w')) →
  let w := Stateful.mkWorld (Stateful.instance_of el) c in
  Stateful.format F v options w = ((TitleBarTypes.format v options el).1, w)
  ∧ Stateful.render F w = ((TitleBarTypes.render el).1, w).
Proof.
  intros HF w.
  assert (Hformat : ∀ v' options',
            Stateful.format F v' options' w
            = ((TitleBarTypes.format v' options' el).1, w)).
  { intros v' options'. rewrite format_run. subst w. cbn.
    destruct (formatter el) as [r|] eqn:Hr; cbn.
    - rewrite (HF r eq_refl). cbn [fst snd].
      destruct options' as [o|].
      + by rewrite format_with_options, Hr.
      + rewrite format_without_options, Hr. cbn [fst default from_option id].
        rewrite default_options_prefix, default_options_suffix. cbn [ToString].
        by rewrite append_empty_l, append_empty_r.
    - destruct options' as [o|].
      + by rewrite format_with_options, Hr.
      + rewrite format_without_options, Hr. cbn [fst default from_option id].
        rewrite default_options_prefix, default_options_suffix. cbn [ToString].
        by rewrite append_empty_l, append_empty_r. }
  split; [apply Hformat|].
  rewrite render_run, Hformat. cbn [fst snd].
  rewrite render_types_unfold, format_with_options. cbn [fst].
  subst w. cbn [Stateful.this Stateful.instance_of Stateful.bar Stateful.title].
  rewrite (get_present _ "prefix" (Str "")) by apply lookup_singleton_eq.
  rewrite (get_or_absent _ "suffix") by by apply lookup_singleton_ne.
  cbn [ToString]. by rewrite append_empty_l, append_empty_r.
Qed.
(** [render] on an element that has a formatter [f]: [f] runs once, on
    the title. *)
Lemma render_with_formatter w f :
  Stateful.formatter (Stateful.this w) = Some f →
  Stateful.render F w
  = (html render_strings
       [ Str (ToString (F f (Str (Stateful.title (Stateful.this w))) w).1);
         Str ("left: "
              +:+ Number_toString
                    (Bar.x (deref (Stateful.bar (Stateful.this
                       (F f (Str (Stateful.title (Stateful.this w))) w).2))))
              +:+ "px; top: "
              +:+ Number_toString
                    (Bar.y (deref (Stateful.bar (Stateful.this
                       (F f (Str (Stateful.title (Stateful.this w))) w).2)))));
         Str (default "" (Bar.title (deref (Stateful.bar (Stateful.this
                (F f (Str (Stateful.title (Stateful.this w))) w).2))))) ],
     (F f (Str (Stateful.title (Stateful.this w))) w).2).
Proof.
  intros Hf. rewrite render_run, format_run, Hf.
  cbn [fst snd default from_option id].
  rewrite (get_present _ "prefix" (Str "")) by apply lookup_singleton_eq.
  rewrite (get_or_absent _ "suffix") by by apply lookup_singleton_ne.
  cbn [ToString]. by rewrite append_empty_l, append_empty_r.
Qed.
End stateful_facts.

Section stateful_claims.
Context {number : Type} `{!Number number} {Closure : Type}.
Variable F : nat → Stateful.Formatter number Closure.
Implicit Types (v : Value number) (w : Stateful.World number Closure)
               (options : option (gmap string (Value number))).

(** C9, as amended.  [format] makes no write of its own, and its result
    is the prefix and the suffix it was given around the formatted value.
    With [formatter] null it leaves the element as it found it and the
    result depends on the arguments only.  With a formatter set, what is
    left after the call is what the formatter left, so the element is
    unchanged whenever the formatter changes nothing, and the result
    depends only on the arguments and on the value the formatter
    returns. *)
Theorem format_frame v options w :
  let o := default {[ "prefix" := Str "" ]} options in
  let p := ToString (get o "prefix") in
  let s := ToString (get_or o "suffix" (Str "")) in
  (Stateful.formatter (Stateful.this w) = None →
     Stateful.format F v options w = (p +:+ ToString v +:+ s, w))
  ∧ (∀ f, Stateful.formatter (Stateful.this w) = Some f →
       Stateful.format F v options w
         = (p +:+ ToString (F f v w).1 +:+ s, (F f v w).2)
       ∧ ((F f v w).2 = w → (Stateful.format F v options w).2 = w)).
Proof.
  intros o p s. split.
  - intros Hf. by rewrite format_run, Hf.
  - intros f Hf. rewrite format_run, Hf. split; [reflexivity|].
    by intros ->.
Qed.

(** C7, as amended.  [render] makes no write of its own: what is left
    after it is what its one call of [format], on the title, left.  With
    [formatter] null the element is left as it was found and a second
    call returns the same description.  With a formatter that writes no
    field and whose result depends only on its argument and on the
    fields, every field is left unchanged and a second call returns the
    same description, whatever the formatter did to its own variables in
    between. *)
Theorem render_twice w :
  (Stateful.render F w).2
    = (Stateful.format F (Str (Stateful.title (Stateful.this w)))
         (Some {[ "prefix" := Str "" ]}) w).2
  ∧ (Stateful.formatter (Stateful.this w) = None →
       (Stateful.render F w).2 = w
       ∧ (Stateful.render F (Stateful.render F w).2).1 = (Stateful.render F w).1)
  ∧ (∀ f, Stateful.formatter (Stateful.this w) = Some f →
       (∀ v w', Stateful.this (F f v w').2 = Stateful.this w') →
       (∀ v w1 w2, Stateful.this w1 = Stateful.this w2 → (F f v w1).1 = (F f v w2).1) →
       Stateful.this (Stateful.render F w).2 = Stateful.this w
       ∧ (Stateful.render F (Stateful.render F w).2).1 = (Stateful.render F w).1).
Proof.
  split_and!.
  - by rewrite render_run.
  - intros Hf.
    assert (Hframe : (Stateful.render F w).2 = w)
      by by rewrite render_run, format_run, Hf.
    by rewrite !Hframe.
  - intros f Hf Hfields Hresult.
    pose proof (render_with_formatter F w f Hf) as Hw.
    set (w1 := (Stateful.render F w).2) in *.
    assert (Hthis : Stateful.this w1 = Stateful.this w).
    { subst w1. rewrite Hw. cbn [snd]. apply Hfields. }
    split; [exact Hthis|].
    assert (Hf1 : Stateful.formatter (Stateful.this w1) = Some f)
      by by rewrite Hthis.
    rewrite (render_with_formatter F w1 f Hf1), Hw. cbn [fst].
    rewrite !Hfields, Hthis.
    by rewrite (Hresult _ w1 w Hthis).
Qed.
End stateful_claims.

(** C9 fails as stated.  With the formatter
    [function (value) { this.title = `${value}!`; return value; }],
    [format('foo')] changes the field [title] from ["You are awesome"] to
    ["foo!"].  With [value => `${value} ${++n}`], two elements with the
    same four fields give different results for the same argument. *)
Lemma format_not_pure :
  Stateful.title (Stateful.this (Hooks.assigned 1 0)) = "You are awesome"
  ∧ Stateful.title (Stateful.this
      (Stateful.format Hooks.functions (Str "foo") None (Hooks.assigned 1 0)).2) = "foo!"
  ∧ Stateful.this (Hooks.assigned 2 0) = Stateful.this (Hooks.assigned 2 5)
  ∧ (Stateful.format Hooks.functions (Str "foo") None (Hooks.assigned 2 0)).1 = "foo 1"
  ∧ (Stateful.format Hooks.functions (Str "foo") None (Hooks.assigned 2 5)).1 = "foo 6".
Proof. by split_and!. Qed.

(** C7 fails as stated.  With the formatter that writes [this.title],
    [render] changes the field [title], and a second call shows another
    heading.  With the counting formatter the four fields are the same
    after [render] as before, and still the second description differs
    from the first. *)
Lemma render_not_idempotent :
  let first := Stateful.render Hooks.functions (Hooks.assigned 1 0) in
  let counted := Stateful.render Hooks.functions (Hooks.assigned 2 0) in
  Stateful.title (Stateful.this first.2) = "You are awesome!"
  ∧ Stateful.title (Stateful.this first.2)
    ≠ Stateful.title (Stateful.this (Hooks.assigned 1 0))
  ∧ Stateful.this counted.2 = Stateful.this (Hooks.assigned 2 0)
  ∧ child_binding "h1" counted.1 = Some (Str "You are awesome 1")
  ∧ child_binding "h1" (Stateful.render Hooks.functions counted.2).1
    = Some (Str "You are awesome 2")
  ∧ (Stateful.render Hooks.functions counted.2).1 ≠ counted.1.
Proof.
  intros first counted. split_and!; try reflexivity.
  - discriminate.
  - intros Heq. apply (f_equal (child_binding "h1")) in Heq. discriminate.
Qed.

(** The test's formatter, which only computes: [format('foo')] leaves the
    world as it found it and returns ["foo for real!"]. *)
Lemma format_frame_witness :
  Stateful.format Hooks.functions (Str "foo") None (Hooks.assigned 3 0)
  = ("foo for real!", Hooks.assigned 3 0).
Proof.
  exact (proj1 (proj2 (format_frame Hooks.functions (Str "foo") None
                         (Hooks.assigned 3 0)) 3 eq_refl)).
Defined.

(** The test's formatter writes no field and its result depends on its
    argument only: the second description is the first. *)
Lemma render_twice_witness :
  let first := Stateful.render Hooks.functions (Hooks.assigned 3 0) in
  Stateful.this first.2 = Stateful.this (Hooks.assigned 3 0)
  ∧ (Stateful.render Hooks.functions first.2).1 = first.1.
Proof.
  intros first.
  apply (proj2 (proj2 (render_twice Hooks.functions (Hooks.assigned 3 0))) 3);
    reflexivity.
Defined.
